(** * Carbon footprint tracker: the form-submission handler of [app.py]

    A shallow embedding of the Flask application of the repository
    (the module-level tables [EMISSION_FACTORS] and [ALTERNATIVES], the
    views [index] and [calculate]) together with the part of the Python
    runtime the handler relies on: binary64 floating point, the builtin
    [float()] applied to a form field, [dict.get], [flash] and
    [logging.error].

    Form values are Python [str] objects.  They are modelled as Rocq
    strings read as sequences of code points U+0000..U+00FF.  The
    runtime is CPython 3 (3.10 or later for the text of the
    [TypeError] of [float(None)]). *)

From Stdlib Require Import ZArith NArith Bool List String Ascii Lia.
From Stdlib Require Import Floats.SpecFloat.
From stdpp Require Import base option list strings gmap.

Local Open Scope string_scope.

(** ** Python [float]: IEEE 754 binary64 *)

Module PyFloat.

Definition prec : Z := 53.
Definition emax : Z := 1024.

(** A Python float is a binary64 datum (a NaN carries no payload here). *)
Definition float : Type := spec_float.

Definition pos_zero : float := S754_zero false.
Definition neg_zero : float := S754_zero true.
Definition inf : float := S754_infinity false.
Definition nan : float := S754_nan.

(** [x * y] on floats: one correctly rounded multiplication. *)
Definition mul (x y : float) : float := SFmul prec emax x y.

(** The comparisons [x == y], [x < y] and [x <= y]. *)
Definition eqb (x y : float) : bool := SFeqb x y.
Definition ltb (x y : float) : bool := SFltb x y.
Definition leb (x y : float) : bool := SFleb x y.

(** [math.isfinite]. *)
Definition is_finite (x : float) : bool :=
  match x with
  | S754_zero _ | S754_finite _ _ _ => true
  | S754_infinity _ | S754_nan => false
  end.

(** The sign bit, [math.copysign(1, x) < 0]; a NaN is given none. *)
Definition signbit (x : float) : bool :=
  match x with
  | S754_zero s | S754_infinity s | S754_finite s _ _ => s
  | S754_nan => false
  end.

(** Conversion of a Python [int] that fits, as in [0 * amount]. *)
Definition of_int (n : Z) : float := binary_normalize prec emax n 0 false.

(** The binary64 value nearest to [(-1)^neg * m * 10^e], ties to even,
    as [strtod] computes it; overflow gives an infinity and underflow a
    signed zero. *)
Definition of_decimal (neg : bool) (m : N) (e : Z) : float :=
  match m with
  | N0 => S754_zero neg
  | Npos p =>
      match e with
      | Zneg k =>
          SFdiv prec emax (S754_finite neg p 0)
                (S754_finite false (Pos.pow 10 k) 0)
      | Z0 => binary_round prec emax neg p 0
      | Zpos k => binary_round prec emax neg (p * Pos.pow 10 k) 0
      end
  end.

End PyFloat.

(** ** The builtin [float(str)] *)

Module FloatFromString.

Import PyFloat.

Definition code (c : ascii) : N := N_of_ascii c.

Definition is_digit (c : ascii) : bool :=
  (48 <=? code c)%N && (code c <=? 57)%N.

Definition digit_value (c : ascii) : N := (code c - 48)%N.

(** [Py_ISSPACE]: the six ASCII white-space characters. *)
Definition Py_ISSPACE (c : ascii) : bool :=
  ((9 <=? code c)%N && (code c <=? 13)%N) || (code c =? 32)%N.

(** [Py_UNICODE_ISSPACE] on the code points below 256. *)
Definition Py_UNICODE_ISSPACE (c : ascii) : bool :=
  ((9 <=? code c)%N && (code c <=? 13)%N)
  || ((28 <=? code c)%N && (code c <=? 32)%N)
  || (code c =? 133)%N || (code c =? 160)%N.

Definition is_ascii (c : ascii) : bool := (code c <? 128)%N.

(** [_PyUnicode_TransformDecimalAndSpaceToASCII]: an all-ASCII string
    is returned as it is; otherwise white space beyond ASCII becomes a
    blank and the first other character that is no decimal digit
    becomes a question mark that ends the result.  No code point
    between 127 and 255 is a decimal digit. *)
Fixpoint transform_loop (s : list ascii) : list ascii :=
  match s with
  | [] => []
  | ch :: rest =>
      if (code ch <? 127)%N then ch :: transform_loop rest
      else if Py_UNICODE_ISSPACE ch then " "%char :: transform_loop rest
      else ["?"%char]
  end.

Definition transform (s : list ascii) : list ascii :=
  if forallb is_ascii s then s else transform_loop s.

Fixpoint lstrip (s : list ascii) : list ascii :=
  match s with
  | c :: rest => if Py_ISSPACE c then lstrip rest else s
  | [] => []
  end.

Definition rstrip (s : list ascii) : list ascii := rev (lstrip (rev s)).

(** [_Py_string_to_number_with_underscores]: an underscore is allowed
    only between two digits; the underscores are then dropped. *)
Fixpoint drop_underscores (prev : ascii) (s : list ascii)
  : option (list ascii) :=
  match s with
  | [] => if Ascii.eqb prev "_" then None else Some []
  | c :: rest =>
      if Ascii.eqb c "_" then
        if is_digit prev then drop_underscores c rest else None
      else if Ascii.eqb prev "_" && negb (is_digit c) then None
      else option_map (cons c) (drop_underscores c rest)
  end.

Definition has_underscore (s : list ascii) : bool :=
  existsb (Ascii.eqb "_") s.

(** The leading decimal digits of [s], and what follows them. *)
Fixpoint span_digits (s : list ascii) : list ascii * list ascii :=
  match s with
  | c :: rest =>
      if is_digit c then
        let '(ds, tl) := span_digits rest in (c :: ds, tl)
      else ([], s)
  | [] => ([], [])
  end.

Definition digits_value (ds : list ascii) : N :=
  fold_left (fun acc c => (acc * 10 + digit_value c)%N) ds 0%N.

Definition take_sign (s : list ascii) : bool * list ascii :=
  match s with
  | "-"%char :: rest => (true, rest)
  | "+"%char :: rest => (false, rest)
  | _ => (false, s)
  end.

Definition lower (c : ascii) : ascii :=
  if (65 <=? code c)%N && (code c <=? 90)%N
  then ascii_of_N (code c + 32) else c.

Definition matches_word (w : string) (s : list ascii) : bool :=
  bool_decide (map lower s = list_ascii_of_string w).

(** [_Py_parse_inf_or_nan], on what follows the sign. *)
Definition parse_inf_or_nan (neg : bool) (s : list ascii) : option float :=
  if matches_word "inf" s || matches_word "infinity" s
  then Some (S754_infinity neg)
  else if matches_word "nan" s then Some S754_nan
  else None.

(** The exponent part: nothing, or [e]/[E], an optional sign and at
    least one digit, up to the end of the text. *)
Definition parse_exponent (s : list ascii) : option Z :=
  match s with
  | [] => Some 0%Z
  | c :: rest =>
      if Ascii.eqb (lower c) "e" then
        let '(eneg, rest') := take_sign rest in
        match span_digits rest' with
        | (d :: ds, []) =>
            let n := Z.of_N (digits_value (d :: ds)) in
            Some (if eneg then (- n)%Z else n)
        | _ => None
        end
      else None
  end.

(** [PyOS_string_to_double] with the whole text to be consumed:
    a decimal number (digits with at most one point and at least one
    digit, then the exponent part), else an infinity or a NaN. *)
Definition string_to_double (s : list ascii) : option float :=
  let '(neg, body) := take_sign s in
  let '(ip, after_ip) := span_digits body in
  let '(fp, after_fp) :=
    match after_ip with
    | "."%char :: rest => span_digits rest
    | _ => ([], after_ip)
    end in
  match (ip ++ fp)%list with
  | [] => parse_inf_or_nan neg body
  | ds =>
      match parse_exponent after_fp with
      | Some e =>
          Some (of_decimal neg (digits_value ds)
                           (e - Z.of_nat (length fp)))
      | None => None
      end
  end.

(** [PyFloat_FromString] on a [str]: [None] stands for the
    [ValueError] it raises. *)
Definition from_string (v : string) : option float :=
  let s := rstrip (lstrip (transform (list_ascii_of_string v))) in
  match s with
  | [] => None
  | _ =>
      if has_underscore s then
        match drop_underscores "000"%char s with
        | Some s' => string_to_double s'
        | None => None
        end
      else string_to_double s
  end.

End FloatFromString.

(** ** The Python operations the handler uses *)

Module Py.

Import PyFloat.

(** The exceptions the body of [calculate] can raise.  The handler
    reads the text [str(e)] of an exception only in its last clause,
    which a [ValueError] never reaches. *)
Inductive exn : Type :=
| ValueError
| TypeError (msg : string).

(** The outcome of evaluating an expression or a [try] body. *)
Inductive result (A : Type) : Type :=
| Return (a : A)
| Raise (e : exn).
Arguments Return {A} a.
Arguments Raise {A} e.

Definition bind {A B} (m : result A) (k : A -> result B) : result B :=
  match m with
  | Return a => k a
  | Raise e => Raise e
  end.

(** [float(x)] for [x] a [str] or [None]. *)
Definition float_ (x : option string) : result float :=
  match x with
  | Some s =>
      match FloatFromString.from_string s with
      | Some f => Return f
      | None => Raise ValueError
      end
  | None =>
      Raise (TypeError
        "float() argument must be a string or a real number, not 'NoneType'")
  end.

(** The left operand of [EMISSION_FACTORS.get(activity_type, 0) * amount]:
    a float of the table or the [int] default. *)
Inductive number : Type :=
| Int (n : Z)
| Float (f : float).

(** [x * amount] with a float on the right: an [int] on the left is
    converted first. *)
Definition mul (x : number) (amount : float) : float :=
  match x with
  | Int n => PyFloat.mul (of_int n) amount
  | Float f => PyFloat.mul f amount
  end.

(** [d.get(key)] on a dict whose keys are strings; the key may be
    [None], which is in no such dict. *)
Definition dict_get {V : Type} (d : gmap string V) (key : option string)
  : option V :=
  match key with
  | Some k => d !! k
  | None => None
  end.

End Py.

Notation "x <- m ;; k" := (Py.bind m (fun x => k))
  (at level 100, m at next level, right associativity, only parsing).

(** ** The application *)

Import PyFloat Py.

(** [request.form]: the submitted fields in order; a name may repeat. *)
Definition MultiDict : Type := list (string * string).

(** [form.get(key)]: the first value of [key], or [None]. *)
Fixpoint form_get (key : string) (form : MultiDict) : option string :=
  match form with
  | [] => None
  | (k, v) :: rest => if String.eqb k key then Some v else form_get key rest
  end.

Inductive level : Type := DEBUG | INFO | WARNING | ERROR | CRITICAL.

(** The process: the two module-level dicts, the queue of flashed
    messages of the session, and the records written by [logging]. *)
Record state : Type := {
  EMISSION_FACTORS : gmap string float;
  ALTERNATIVES : gmap string string;
  flashes : list string;
  log : list (level * string)
}.

(** A float literal of the source text, read as [float()] reads it
    (the two agree on plain decimal literals). *)
Definition literal (text : string) : float :=
  default nan (FloatFromString.from_string text).

(** The state once the module has been loaded. *)
Definition app_init : state := {|
  EMISSION_FACTORS :=
    {[ "electricity" := literal "0.233";
       "gasoline" := literal "2.31";
       "natural_gas" := literal "2.204" ]};
  ALTERNATIVES :=
    {[ "electricity" :=
         "Consider switching to renewable energy sources or using energy-efficient appliances.";
       "gasoline" :=
         "Consider using public transportation or switching to an electric vehicle.";
       "natural_gas" :=
         "Consider improving home insulation or using energy-efficient HVAC systems." ]};
  flashes := [];
  log := []
|}.

Definition flash (message : string) (st : state) : state := {|
  EMISSION_FACTORS := EMISSION_FACTORS st;
  ALTERNATIVES := ALTERNATIVES st;
  flashes := (flashes st ++ [message])%list;
  log := log st
|}.

(** [logging.error(msg)]; the root logger was configured at [DEBUG], so
    the record is emitted. *)
Definition logging_error (msg : string) (st : state) : state := {|
  EMISSION_FACTORS := EMISSION_FACTORS st;
  ALTERNATIVES := ALTERNATIVES st;
  flashes := flashes st;
  log := (log st ++ [(ERROR, msg)])%list
|}.

(** [get_flashed_messages()]: the queued messages, which it removes. *)
Definition get_flashed_messages (st : state) : list string * state :=
  (flashes st,
   {| EMISSION_FACTORS := EMISSION_FACTORS st;
      ALTERNATIVES := ALTERNATIVES st;
      flashes := [];
      log := log st |}).

Inductive template : Type := index_html | result_html.

Inductive value : Type :=
| VFloat (f : float)
| VStr (s : string).

Inductive endpoint : Type := ep_index | ep_calculate.

Definition url_for (ep : endpoint) : string :=
  match ep with
  | ep_index => "/"
  | ep_calculate => "/calculate"
  end.

(** What a view returns: a rendered page, with the keyword arguments it
    was given and the flashed messages it displays, or a redirection. *)
Inductive response : Type :=
| Page (t : template) (context : list (string * value))
       (messages : list string)
| Redirect (location : string).

(** [render_template]: [index.html] lists the flashed messages,
    [result.html] shows [emissions] and [alternative] only. *)
Definition render_template (t : template) (context : list (string * value))
    (st : state) : response * state :=
  match t with
  | index_html =>
      let '(messages, st') := get_flashed_messages st in
      (Page index_html context messages, st')
  | result_html => (Page result_html context [], st)
  end.

Definition redirect (location : string) (st : state) : response * state :=
  (Redirect location, st).

(** The view of [/]. *)
Definition index (st : state) : response * state :=
  render_template index_html [] st.

(** The [try] body of [calculate]. *)
Definition calculate_body (form : MultiDict) (st : state)
    : result (response * state) :=
  let activity_type := form_get "activity_type" form in
  amount <- float_ (form_get "amount" form) ;;
  let emissions :=
    mul (from_option Float (Int 0)
           (dict_get (EMISSION_FACTORS st) activity_type))
        amount in
  let alternative_suggestion :=
    default "No suggestion available."
            (dict_get (ALTERNATIVES st) activity_type) in
  Return (render_template result_html
            [("emissions", VFloat emissions);
             ("alternative", VStr alternative_suggestion)] st).

(** The view of [/calculate] (POST). *)
Definition calculate (form : MultiDict) (st : state) : response * state :=
  match calculate_body form st with
  | Return r => r
  | Raise ValueError =>
      let st := flash "Invalid input. Please enter a numeric value for amount." st in
      let st := logging_error "Invalid input for amount; conversion to float failed." st in
      redirect (url_for ep_index) st
  | Raise (TypeError e) =>
      let st := flash "An error occurred. Please try again." st in
      let st := logging_error ("An unexpected error occurred: " ++ e) st in
      redirect (url_for ep_index) st
  end.

Inductive request : Type :=
| GET_index
| POST_calculate (form : MultiDict).

Definition handle (r : request) (st : state) : response * state :=
  match r with
  | GET_index => index st
  | POST_calculate form => calculate form st
  end.

(** The states the process goes through while it serves requests. *)
Inductive reachable : state -> Prop :=
| reachable_init : reachable app_init
| reachable_step (r : request) (st : state) :
    reachable st -> reachable (handle r st).2.

(** The form that carries the two fields as given. *)
Definition submit (activity_type amount : string) : MultiDict :=
  [("activity_type", activity_type); ("amount", amount)].

(** * Properties *)

Definition known_keys : list string :=
  ["electricity"; "gasoline"; "natural_gas"].

Definition fallback_advisory : string := "No suggestion available.".

(** [st] after the messages [fl] were flashed and the records [lg]
    were logged. *)
Definition emit (fl : list string) (lg : list (level * string)) (st : state)
    : state := {|
  EMISSION_FACTORS := EMISSION_FACTORS st;
  ALTERNATIVES := ALTERNATIVES st;
  flashes := (flashes st ++ fl)%list;
  log := (log st ++ lg)%list
|}.

(** The coefficient [EMISSION_FACTORS.get(activity_type, 0)] of a request. *)
Definition coefficient (form : MultiDict) (st : state) : number :=
  from_option Float (Int 0)
    (dict_get (EMISSION_FACTORS st) (form_get "activity_type" form)).

(** The page [calculate] returns on success. *)
Definition result_page (emissions : float) (alternative : string) : response :=
  Page result_html
       [("emissions", VFloat emissions); ("alternative", VStr alternative)] [].

(** The process serving the requests [reqs] one after the other: the
    responses it sends, in order, and the state it ends in. *)
Fixpoint serve (reqs : list request) (st : state) : list response * state :=
  match reqs with
  | [] => ([], st)
  | r :: rest =>
      let '(resp, st1) := handle r st in
      let '(resps, st2) := serve rest st1 in
      (resp :: resps, st2)
  end.

Definition is_redirect (r : response) : bool :=
  match r with
  | Redirect _ => true
  | Page _ _ _ => false
  end.

(** The flashed messages a response shows to the user. *)
Definition displayed (r : response) : list string :=
  match r with
  | Page _ _ messages => messages
  | Redirect _ => []
  end.

(** The values of the options of the [activity_type] select element of
    [index.html]. *)
Definition index_html_options : list string :=
  ["electricity"; "gasoline"; "natural_gas"].

(** The two messages [calculate] flashes. *)
Definition flash_messages : list string :=
  ["Invalid input. Please enter a numeric value for amount.";
   "An error occurred. Please try again."].

(** The two records [calculate] logs; the second carries the text of
    the [TypeError] of [float(None)]. *)
Definition error_records : list (level * string) :=
  [(ERROR, "Invalid input for amount; conversion to float failed.");
   (ERROR,
    "An unexpected error occurred: float() argument must be a string or a real number, not 'NoneType'")].

(** What a request does, in the three shapes the two views allow. *)
Inductive step_shape (st : state) : response * state -> Prop :=
| shape_index :
    step_shape st
      (Page index_html [] (flashes st),
       {| EMISSION_FACTORS := EMISSION_FACTORS st;
          ALTERNATIVES := ALTERNATIVES st;
          flashes := [];
          log := log st |})
| shape_result (emissions : float) (alternative : string) :
    step_shape st (result_page emissions alternative, st)
| shape_redirect (message : string) (record : level * string) :
    message ∈ flash_messages ->
    record ∈ error_records ->
    step_shape st (Redirect "/", emit [message] [record] st).

(** The characters of an amount text that [float()] accepts: decimal
    digits, signs, the point, the underscore, the letters of the
    exponent mark and of [inf], [infinity] and [nan] in either case, and
    the white space that is stripped. *)
Definition number_char (c : ascii) : bool :=
  FloatFromString.is_digit c
  || bool_decide (c ∈ list_ascii_of_string "+-.")
  || bool_decide (FloatFromString.lower c ∈ list_ascii_of_string "aefinty").





Arguments literal : simpl never.

(** ** The tables *)

Section Tables.

Lemma factors_lookup (k : string) :
  EMISSION_FACTORS app_init !! k =
    if decide ("electricity" = k) then Some (literal "0.233")
    else if decide ("gasoline" = k) then Some (literal "2.31")
    else if decide ("natural_gas" = k) then Some (literal "2.204")
    else None.
Proof.
  unfold app_init; cbn [EMISSION_FACTORS].
  rewrite !lookup_insert, lookup_singleton.
  reflexivity.
Qed.

Lemma alternatives_lookup (k : string) :
  ALTERNATIVES app_init !! k =
    if decide ("electricity" = k) then
      Some "Consider switching to renewable energy sources or using energy-efficient appliances."
    else if decide ("gasoline" = k) then
      Some "Consider using public transportation or switching to an electric vehicle."
    else if decide ("natural_gas" = k) then
      Some "Consider improving home insulation or using energy-efficient HVAC systems."
    else None.
Proof.
  unfold app_init; cbn [ALTERNATIVES].
  rewrite !lookup_insert, lookup_singleton.
  reflexivity.
Qed.

Lemma factors_dom :
  dom (EMISSION_FACTORS app_init)
  = ({[ "electricity"; "gasoline"; "natural_gas" ]} : gset string).
Proof.
  unfold app_init; cbn [EMISSION_FACTORS].
  rewrite !dom_insert_L, dom_singleton_L. set_solver.
Qed.

Lemma alternatives_dom :
  dom (ALTERNATIVES app_init)
  = ({[ "electricity"; "gasoline"; "natural_gas" ]} : gset string).
Proof.
  unfold app_init; cbn [ALTERNATIVES].
  rewrite !dom_insert_L, dom_singleton_L. set_solver.
Qed.

Lemma known_keys_dom (k : string) :
  k ∈ known_keys <-> k ∈ dom (EMISSION_FACTORS app_init).
Proof.
  rewrite factors_dom. unfold known_keys.
  rewrite !elem_of_cons, elem_of_nil, !elem_of_union, !elem_of_singleton.
  tauto.
Qed.

Lemma factors_positive (k : string) (c : float) :
  EMISSION_FACTORS app_init !! k = Some c -> ltb pos_zero c = true.
Proof.
  rewrite factors_lookup.
  repeat case_decide; intros E; inversion_clear E; vm_compute; reflexivity.
Qed.

(** Every coefficient is a finite float with a clear sign bit. *)
Lemma factors_finite (k : string) (c : float) :
  EMISSION_FACTORS app_init !! k = Some c ->
  exists m e, c = S754_finite false m e.
Proof.
  rewrite factors_lookup.
  repeat case_decide; intros E; inversion_clear E; vm_compute; eauto.
Qed.

(** The coefficients as binary64 data: mantissa and binary exponent. *)
Example factor_floats :
  literal "0.233" = S754_finite false 8394709705418605 (-55)
  /\ literal "2.31" = S754_finite false 5201657569612923 (-51)
  /\ literal "2.204" = S754_finite false 4962966789362287 (-51).
Proof. repeat split; vm_compute; reflexivity. Qed.

(** No advisory of the table is the fallback text. *)
Lemma alternatives_not_fallback (k : string) (adv : string) :
  ALTERNATIVES app_init !! k = Some adv -> adv <> fallback_advisory.
Proof.
  rewrite alternatives_lookup.
  repeat case_decide; intros E; inversion_clear E; discriminate.
Qed.

Lemma tables_same_keys (k : string) :
  EMISSION_FACTORS app_init !! k = None
  <-> ALTERNATIVES app_init !! k = None.
Proof.
  rewrite <- !not_elem_of_dom, factors_dom, alternatives_dom. reflexivity.
Qed.

End Tables.

(** ** The tables are never written *)

Section Invariant.

Definition same_tables (st st' : state) : Prop :=
  EMISSION_FACTORS st' = EMISSION_FACTORS st
  /\ ALTERNATIVES st' = ALTERNATIVES st.

Lemma index_tables (st : state) : same_tables st (index st).2.
Proof. split; reflexivity. Qed.

Lemma calculate_tables (form : MultiDict) (st : state) :
  same_tables st (calculate form st).2.
Proof.
  unfold calculate, calculate_body.
  destruct (float_ (form_get "amount" form)) as [a | [ | msg]];
    split; reflexivity.
Qed.

Lemma handle_tables (r : request) (st : state) :
  same_tables st (handle r st).2.
Proof.
  destruct r; [apply index_tables | apply calculate_tables].
Qed.

Lemma reachable_tables (st : state) :
  reachable st -> same_tables app_init st.
Proof.
  induction 1 as [ | r st _ [IHf IHa]].
  - split; reflexivity.
  - destruct (handle_tables r st) as [Hf Ha].
    split; congruence.
Qed.

End Invariant.

(** ** Facts on binary64 multiplication *)

Section FloatFacts.

Local Open Scope Z_scope.

Lemma shr_1_nonneg (mrs : shr_record) :
  0 <= shr_m mrs -> 0 <= shr_m (shr_1 mrs).
Proof.
  destruct mrs as [m r s]; cbn [shr_m].
  destruct m as [ | [p | p | ] | p]; cbn; lia.
Qed.

Lemma iter_shr_1_nonneg (p : positive) :
  forall mrs, 0 <= shr_m mrs -> 0 <= shr_m (SpecFloat.iter_pos shr_1 p mrs).
Proof.
  induction p as [p IH | p IH | ]; intros mrs H; cbn [SpecFloat.iter_pos].
  - apply IH, IH, shr_1_nonneg, H.
  - apply IH, IH, H.
  - apply shr_1_nonneg, H.
Qed.

Lemma shr_record_of_loc_m (m : Z) (l : location) :
  shr_m (shr_record_of_loc m l) = m.
Proof. destruct l as [ | [ | | ]]; reflexivity. Qed.

Lemma shr_fexp_nonneg (m e : Z) (l : location) :
  0 <= m -> 0 <= shr_m (shr_fexp prec emax m e l).1.
Proof.
  intros H. unfold shr_fexp, shr.
  destruct (fexp prec emax (Zdigits2 m + e) - e) as [ | p | p]; cbn [fst];
    try apply iter_shr_1_nonneg; rewrite shr_record_of_loc_m; exact H.
Qed.

Lemma round_nearest_even_nonneg (m : Z) (l : location) :
  0 <= m -> 0 <= round_nearest_even m l.
Proof.
  intros H. destruct l as [ | [ | | ]]; cbn; try destruct (Z.even m); lia.
Qed.

(** Rounding a non-negative mantissa keeps the sign it is given: the
    result is a zero, a finite float or an infinity of that sign. *)
Lemma binary_round_aux_sign (sx : bool) (mx ex : Z) (lx : location) :
  0 <= mx ->
  let r := binary_round_aux prec emax sx mx ex lx in
  r <> S754_nan /\ signbit r = sx.
Proof.
  intros H r. subst r. unfold binary_round_aux.
  pose proof (shr_fexp_nonneg mx ex lx H) as H1.
  destruct (shr_fexp prec emax mx ex lx) as [mrs' e'].
  cbn [fst] in H1.
  pose proof (shr_fexp_nonneg _ e' loc_Exact
                (round_nearest_even_nonneg _ (loc_of_shr_record mrs') H1))
    as H2.
  destruct (shr_fexp prec emax _ e' loc_Exact) as [mrs'' e''].
  cbn [fst] in H2.
  destruct (shr_m mrs'') as [ | m | m]; [ | | lia].
  - split; [discriminate | reflexivity].
  - destruct (e'' <=? emax - prec); split; (discriminate || reflexivity).
Qed.

(** A float below zero is a negative finite float or minus infinity. *)
Lemma ltb_zero_cases (a : float) :
  ltb a pos_zero = true ->
  (exists m e, a = S754_finite true m e) \/ a = S754_infinity true.
Proof.
  destruct a as [s | [ | ] | | [ | ] m e]; cbn; try discriminate; eauto.
Qed.

(** A positive finite factor times an amount below zero carries the
    minus sign. *)
Lemma mul_positive_negative (mc : positive) (ec : Z) (a : float) :
  ltb a pos_zero = true ->
  signbit (PyFloat.mul (S754_finite false mc ec) a) = true.
Proof.
  intros [(m & e & ->) | ->]%ltb_zero_cases; [ | reflexivity].
  unfold PyFloat.mul, SFmul.
  apply (binary_round_aux_sign (xorb false true)). lia.
Qed.

(** With the minus sign a float is below zero, or is [-0.0]. *)
Lemma signbit_cases (r : float) :
  signbit r = true -> ltb r pos_zero = true \/ r = neg_zero.
Proof.
  destruct r as [ [ | ] | [ | ] | | [ | ] m e]; cbn; try discriminate; eauto.
Qed.

(** [0 * amount] for a finite amount is a zero of the amount's sign. *)
Lemma mul_int_zero_finite (a : float) :
  is_finite a = true -> Py.mul (Int 0) a = S754_zero (signbit a).
Proof.
  destruct a as [s | s | | s m e]; cbn; try discriminate; reflexivity.
Qed.

Lemma mul_int_zero_not_finite (a : float) :
  is_finite a = false -> Py.mul (Int 0) a = nan.
Proof.
  destruct a as [s | s | | s m e]; cbn; try discriminate; reflexivity.
Qed.

(** Both zeros compare equal to [0.0]. *)
Lemma zero_eqb (s : bool) : eqb (S754_zero s) pos_zero = true.
Proof. reflexivity. Qed.

End FloatFacts.

(** ** The handler, case by case *)

Section Calculate.

Lemma emit_nothing (st : state) : emit [] [] st = st.
Proof.
  destruct st as [f a fl lg]. unfold emit. cbn.
  rewrite !app_nil_r. reflexivity.
Qed.

Lemma emit_tables (fl : list string) (lg : list (level * string))
    (st : state) :
  same_tables st (emit fl lg st).
Proof. split; reflexivity. Qed.

(** A parsed amount: the result page, and nothing flashed or logged. *)
Lemma calculate_parsed (form : MultiDict) (st : state) (s : string)
    (a : float) :
  form_get "amount" form = Some s ->
  FloatFromString.from_string s = Some a ->
  calculate form st
  = (result_page
       (Py.mul (coefficient form st) a)
       (default fallback_advisory
          (dict_get (ALTERNATIVES st) (form_get "activity_type" form))),
     st).
Proof.
  intros Hs Ha. unfold calculate, calculate_body, float_.
  rewrite Hs, Ha. reflexivity.
Qed.

(** An amount that does not parse: the [ValueError] clause. *)
Lemma calculate_unparsed (form : MultiDict) (st : state) (s : string) :
  form_get "amount" form = Some s ->
  FloatFromString.from_string s = None ->
  calculate form st
  = (Redirect "/",
     emit ["Invalid input. Please enter a numeric value for amount."]
          [(ERROR, "Invalid input for amount; conversion to float failed.")]
          st).
Proof.
  intros Hs Ha. unfold calculate, calculate_body, float_.
  rewrite Hs, Ha. reflexivity.
Qed.

(** No amount field: the last clause. *)
Lemma calculate_no_amount (form : MultiDict) (st : state) :
  form_get "amount" form = None ->
  exists msg,
    float_ None = Raise (TypeError msg)
    /\ calculate form st
       = (Redirect "/",
          emit ["An error occurred. Please try again."]
               [(ERROR, "An unexpected error occurred: " ++ msg)] st).
Proof.
  intros Hs. eexists. split; [reflexivity | ].
  unfold calculate, calculate_body. rewrite Hs. reflexivity.
Qed.

(** In a reachable state a known key finds its coefficient and its
    advisory. *)
Lemma known_key_lookup (st : state) (k : string) :
  reachable st -> k ∈ known_keys ->
  exists c adv,
    EMISSION_FACTORS app_init !! k = Some c
    /\ ALTERNATIVES app_init !! k = Some adv
    /\ EMISSION_FACTORS st !! k = Some c
    /\ ALTERNATIVES st !! k = Some adv.
Proof.
  intros [Hf Ha]%reachable_tables Hk.
  rewrite Hf, Ha, factors_lookup, alternatives_lookup.
  unfold known_keys in Hk.
  rewrite !elem_of_cons, elem_of_nil in Hk.
  destruct Hk as [-> | [-> | [-> | []]]]; cbn; eauto 6.
Qed.

Lemma calculate_known (st : state) (form : MultiDict) (k s : string)
    (a : float) :
  reachable st ->
  form_get "activity_type" form = Some k ->
  form_get "amount" form = Some s ->
  k ∈ known_keys ->
  FloatFromString.from_string s = Some a ->
  exists c adv,
    EMISSION_FACTORS app_init !! k = Some c
    /\ ALTERNATIVES app_init !! k = Some adv
    /\ calculate form st = (result_page (PyFloat.mul c a) adv, st).
Proof.
  intros Hst Hk Hs Hin Ha.
  destruct (known_key_lookup st k Hst Hin) as (c & adv & Hc & Hadv & Hc' & Hadv').
  exists c, adv. split; [exact Hc | split; [exact Hadv | ]].
  rewrite (calculate_parsed form st s a Hs Ha).
  unfold coefficient. rewrite Hk. cbn [dict_get].
  rewrite Hc', Hadv'. reflexivity.
Qed.

(** A key that is missing or in no table: the defaults. *)
Lemma calculate_unknown (st : state) (form : MultiDict) (s : string)
    (a : float) :
  reachable st ->
  dict_get (EMISSION_FACTORS app_init) (form_get "activity_type" form) = None ->
  form_get "amount" form = Some s ->
  FloatFromString.from_string s = Some a ->
  calculate form st
  = (result_page (Py.mul (Int 0) a) "No suggestion available.", st).
Proof.
  intros [Hf Ha]%reachable_tables Hk Hs Hp.
  rewrite (calculate_parsed form st s a Hs Hp).
  unfold coefficient. rewrite Hf, Ha, Hk.
  destruct (form_get "activity_type" form) as [k | ]; cbn [dict_get] in *.
  - apply tables_same_keys in Hk. rewrite Hk. reflexivity.
  - reflexivity.
Qed.

End Calculate.

(** ** The specification, claim by claim *)

(** C1: for a known activity-type key [k] and an amount text that
    parses as a non-negative float [a], [calculate] succeeds: it renders
    the result page with emissions the single product [factor[k] * a] of
    the table coefficient and [a], and with the advisory of [k]; nothing
    is flashed or logged. *)
Theorem known_key_nonnegative_amount
    (st : state) (form : MultiDict) (k s : string) (a : float) :
  reachable st ->
  form_get "activity_type" form = Some k ->
  form_get "amount" form = Some s ->
  k ∈ known_keys ->
  FloatFromString.from_string s = Some a ->
  leb pos_zero a = true ->
  exists c adv,
    EMISSION_FACTORS app_init !! k = Some c
    /\ ALTERNATIVES app_init !! k = Some adv
    /\ calculate form st = (result_page (PyFloat.mul c a) adv, st).
Proof.
  intros Hst Hk Hs Hin Ha _. exact (calculate_known st form k s a Hst Hk Hs Hin Ha).
Qed.

Lemma known_key_nonnegative_amount_witness :
  exists c adv,
    EMISSION_FACTORS app_init !! "gasoline" = Some c
    /\ ALTERNATIVES app_init !! "gasoline" = Some adv
    /\ calculate (submit "gasoline" "5") app_init
       = (result_page (PyFloat.mul c (literal "5")) adv, app_init).
Proof.
  apply (known_key_nonnegative_amount
           app_init (submit "gasoline" "5") "gasoline" "5" (literal "5")).
  - apply reachable_init.
  - reflexivity.
  - reflexivity.
  - unfold known_keys. rewrite !elem_of_cons. right; left; reflexivity.
  - vm_compute; reflexivity.
  - vm_compute; reflexivity.
Defined.

(** C2: whatever the activity type, an amount text that [float()]
    rejects makes [calculate] flash exactly the fixed message, log one
    record at [ERROR] and redirect to the input form; the handler
    returns a response on this path as on every other. *)
Theorem non_numeric_amount_is_rejected
    (st : state) (form : MultiDict) (s : string) :
  form_get "amount" form = Some s ->
  FloatFromString.from_string s = None ->
  calculate form st
  = (Redirect (url_for ep_index),
     emit ["Invalid input. Please enter a numeric value for amount."]
          [(ERROR, "Invalid input for amount; conversion to float failed.")]
          st).
Proof. apply calculate_unparsed. Qed.

Lemma non_numeric_amount_is_rejected_witness :
  calculate (submit "electricity" "abc") app_init
  = (Redirect (url_for ep_index),
     emit ["Invalid input. Please enter a numeric value for amount."]
          [(ERROR, "Invalid input for amount; conversion to float failed.")]
          app_init).
Proof.
  apply (non_numeric_amount_is_rejected
           app_init (submit "electricity" "abc") "abc").
  - reflexivity.
  - vm_compute; reflexivity.
Defined.

(** The texts the specification lists as non-numeric are rejected by
    [float()], and so is the spelled-out number of its scenario. *)
Example non_numeric_texts :
  FloatFromString.from_string "abc" = None
  /\ FloatFromString.from_string EmptyString = None
  /\ FloatFromString.from_string "1,2" = None
  /\ FloatFromString.from_string "ten" = None.
Proof. repeat split; vm_compute; reflexivity. Qed.

(** C3, as stated, fails: for the key [solar], which is in no table,
    and the amount text [inf], which [float()] accepts, the emissions
    are [0 * inf], a NaN, which does not compare equal to [0.0]. *)
Lemma unknown_key_infinite_amount :
  ~ (forall (k s : string) (a : float),
        EMISSION_FACTORS app_init !! k = None ->
        FloatFromString.from_string s = Some a ->
        exists emissions,
          calculate (submit k s) app_init
          = (result_page emissions "No suggestion available.", app_init)
          /\ eqb emissions pos_zero = true).
Proof.
  intros H.
  destruct (H "solar" "inf" inf) as (e & Hc & He).
  - vm_compute; reflexivity.
  - vm_compute; reflexivity.
  - assert (calculate (submit "solar" "inf") app_init
            = (result_page nan "No suggestion available.", app_init)) as E
      by (vm_compute; reflexivity).
    rewrite E in Hc. injection Hc as <-. discriminate He.
Qed.

(** C3, amended: for a key in no table and an amount text that parses,
    [calculate] succeeds with the fallback advisory and the emissions
    [0 * amount].  For a finite amount that product is a zero with the
    sign of the amount, which compares equal to [0.0]; for an infinity
    or a NaN it is a NaN. *)
Theorem unknown_key_zero_emissions
    (st : state) (form : MultiDict) (k s : string) (a : float) :
  reachable st ->
  form_get "activity_type" form = Some k ->
  form_get "amount" form = Some s ->
  EMISSION_FACTORS app_init !! k = None ->
  FloatFromString.from_string s = Some a ->
  calculate form st
  = (result_page (Py.mul (Int 0) a) "No suggestion available.", st)
  /\ (is_finite a = true ->
      Py.mul (Int 0) a = S754_zero (signbit a)
      /\ eqb (Py.mul (Int 0) a) pos_zero = true)
  /\ (is_finite a = false -> Py.mul (Int 0) a = nan).
Proof.
  intros Hst Hk Hs Hnone Ha. split; [ | split].
  - apply (calculate_unknown st form s a Hst); [ | exact Hs | exact Ha].
    rewrite Hk. exact Hnone.
  - intros Hfin. rewrite (mul_int_zero_finite a Hfin).
    split; [reflexivity | apply zero_eqb].
  - apply mul_int_zero_not_finite.
Qed.

Lemma unknown_key_zero_emissions_witness :
  calculate (submit "solar" "-10") app_init
  = (result_page (Py.mul (Int 0) (literal "-10")) "No suggestion available.",
     app_init)
  /\ (is_finite (literal "-10") = true ->
      Py.mul (Int 0) (literal "-10") = S754_zero (signbit (literal "-10"))
      /\ eqb (Py.mul (Int 0) (literal "-10")) pos_zero = true)
  /\ (is_finite (literal "-10") = false ->
      Py.mul (Int 0) (literal "-10") = nan).
Proof.
  apply (unknown_key_zero_emissions
           app_init (submit "solar" "-10") "solar" "-10" (literal "-10")).
  - apply reachable_init.
  - reflexivity.
  - reflexivity.
  - vm_compute; reflexivity.
  - vm_compute; reflexivity.
Defined.

(** C4: when both fields are present, the body of [calculate] raises no
    [TypeError], so the last [except] clause (the message
    [An error occurred. Please try again.]) is not taken: the call
    either renders the result page and leaves the state as it was, or
    takes the [ValueError] clause. *)
Theorem generic_clause_unreachable
    (st : state) (form : MultiDict) (k s : string) :
  form_get "activity_type" form = Some k ->
  form_get "amount" form = Some s ->
  (forall e, calculate_body form st <> Raise (TypeError e))
  /\ ((exists emissions advisory,
          calculate form st = (result_page emissions advisory, st))
      \/ (calculate_body form st = Raise ValueError
          /\ calculate form st
             = (Redirect (url_for ep_index),
                emit ["Invalid input. Please enter a numeric value for amount."]
                     [(ERROR, "Invalid input for amount; conversion to float failed.")]
                     st))).
Proof.
  intros _ Hs.
  destruct (FloatFromString.from_string s) as [a | ] eqn:Ha.
  - split.
    + intros e. unfold calculate_body, float_. rewrite Hs, Ha. discriminate.
    + left. rewrite (calculate_parsed form st s a Hs Ha). eauto.
  - split.
    + intros e. unfold calculate_body, float_. rewrite Hs, Ha. discriminate.
    + right. split; [ | exact (calculate_unparsed form st s Hs Ha)].
      unfold calculate_body, float_. rewrite Hs, Ha. reflexivity.
Qed.

Lemma generic_clause_unreachable_witness :
  (forall e, calculate_body (submit "solar" "1e") app_init
             <> Raise (TypeError e))
  /\ ((exists emissions advisory,
          calculate (submit "solar" "1e") app_init
          = (result_page emissions advisory, app_init))
      \/ (calculate_body (submit "solar" "1e") app_init = Raise ValueError
          /\ calculate (submit "solar" "1e") app_init
             = (Redirect (url_for ep_index),
                emit ["Invalid input. Please enter a numeric value for amount."]
                     [(ERROR, "Invalid input for amount; conversion to float failed.")]
                     app_init))).
Proof.
  apply (generic_clause_unreachable app_init (submit "solar" "1e") "solar" "1e");
    reflexivity.
Defined.

(** C5: the four scenarios, from the state the module is loaded in.  The
    emissions are the very floats that the texts [2.33], [11.55] and
    [4.408] denote, and [0.0]. *)
Theorem concrete_scenarios :
  calculate (submit "electricity" "10") app_init
  = (result_page (literal "2.33")
       "Consider switching to renewable energy sources or using energy-efficient appliances.",
     app_init)
  /\ calculate (submit "gasoline" "5") app_init
     = (result_page (literal "11.55")
          "Consider using public transportation or switching to an electric vehicle.",
        app_init)
  /\ calculate (submit "natural_gas" "2") app_init
     = (result_page (literal "4.408")
          "Consider improving home insulation or using energy-efficient HVAC systems.",
        app_init)
  /\ calculate (submit "solar" "10") app_init
     = (result_page pos_zero "No suggestion available.", app_init).
Proof. repeat split; vm_compute; reflexivity. Qed.

(** The floats of the scenarios, as mantissa and binary exponent. *)
Example scenario_floats :
  literal "2.33" = S754_finite false 5246693565886628 (-51)
  /\ literal "11.55" = S754_finite false 6502071962016154 (-49)
  /\ literal "4.408" = S754_finite false 4962966789362287 (-50).
Proof. repeat split; vm_compute; reflexivity. Qed.

(** C6, as stated, fails: for [electricity] and the amount text
    [-5e-324], which parses as a float below zero, the product
    [0.233 * a] underflows to [-0.0], which is not below zero. *)
Lemma negative_amount_underflow :
  ~ (forall (k s : string) (a : float),
        k ∈ known_keys ->
        FloatFromString.from_string s = Some a ->
        ltb a pos_zero = true ->
        exists c adv,
          EMISSION_FACTORS app_init !! k = Some c
          /\ calculate (submit k s) app_init
             = (result_page (PyFloat.mul c a) adv, app_init)
          /\ ltb (PyFloat.mul c a) pos_zero = true).
Proof.
  intros H.
  destruct (H "electricity" "-5e-324" (S754_finite true 1 (-1074)))
    as (c & adv & Hc & _ & Hlt).
  - unfold known_keys. rewrite !elem_of_cons. left; reflexivity.
  - vm_compute; reflexivity.
  - reflexivity.
  - rewrite factors_lookup in Hc. cbn in Hc. injection Hc as <-.
    vm_compute in Hlt. discriminate Hlt.
Qed.

(** C6, amended: for a known key and an amount text that parses as a
    float below zero, [calculate] succeeds without flashing or logging
    and renders the unclamped product [factor[k] * a], which carries the
    minus sign: it is below zero, or it is [-0.0] when the product
    underflows. *)
Theorem negative_amount_accepted
    (st : state) (form : MultiDict) (k s : string) (a : float) :
  reachable st ->
  form_get "activity_type" form = Some k ->
  form_get "amount" form = Some s ->
  k ∈ known_keys ->
  FloatFromString.from_string s = Some a ->
  ltb a pos_zero = true ->
  exists c adv,
    EMISSION_FACTORS app_init !! k = Some c
    /\ ALTERNATIVES app_init !! k = Some adv
    /\ calculate form st = (result_page (PyFloat.mul c a) adv, st)
    /\ signbit (PyFloat.mul c a) = true
    /\ (ltb (PyFloat.mul c a) pos_zero = true \/ PyFloat.mul c a = neg_zero).
Proof.
  intros Hst Hk Hs Hin Ha Hneg.
  destruct (calculate_known st form k s a Hst Hk Hs Hin Ha)
    as (c & adv & Hc & Hadv & Hcalc).
  exists c, adv. repeat (split; [assumption | ]).
  destruct (factors_finite k c Hc) as (mc & ec & ->).
  pose proof (mul_positive_negative mc ec a Hneg) as Hsign.
  split; [exact Hsign | apply signbit_cases, Hsign].
Qed.

Lemma negative_amount_accepted_witness :
  exists c adv,
    EMISSION_FACTORS app_init !! "natural_gas" = Some c
    /\ ALTERNATIVES app_init !! "natural_gas" = Some adv
    /\ calculate (submit "natural_gas" "-2") app_init
       = (result_page (PyFloat.mul c (literal "-2")) adv, app_init)
    /\ signbit (PyFloat.mul c (literal "-2")) = true
    /\ (ltb (PyFloat.mul c (literal "-2")) pos_zero = true
        \/ PyFloat.mul c (literal "-2") = neg_zero).
Proof.
  apply (negative_amount_accepted
           app_init (submit "natural_gas" "-2") "natural_gas" "-2"
           (literal "-2")).
  - apply reachable_init.
  - reflexivity.
  - reflexivity.
  - unfold known_keys. rewrite !elem_of_cons. right; right; left; reflexivity.
  - vm_compute; reflexivity.
  - vm_compute; reflexivity.
Defined.

(** What a call answers and emits is fixed by the form, in every state
    that holds the tables of the module. *)
Lemma calculate_by_form (form : MultiDict) :
  exists (resp : response) (fl : list string) (lg : list (level * string)),
    forall st, same_tables app_init st ->
               calculate form st = (resp, emit fl lg st).
Proof.
  destruct (form_get "amount" form) as [s | ] eqn:Hs.
  - destruct (FloatFromString.from_string s) as [a | ] eqn:Ha.
    + exists (result_page
                (Py.mul (coefficient form app_init) a)
                (default fallback_advisory
                   (dict_get (ALTERNATIVES app_init)
                             (form_get "activity_type" form)))), [], [].
      intros st [Hf Hadv].
      rewrite (calculate_parsed form st s a Hs Ha), emit_nothing.
      unfold coefficient. rewrite Hf, Hadv. reflexivity.
    + eexists _, _, _. intros st _. exact (calculate_unparsed form st s Hs Ha).
  - eexists _, _, _. intros st _.
    unfold calculate, calculate_body. rewrite Hs. reflexivity.
Qed.

(** C7: the response of [calculate] and the messages it flashes and
    logs are a function of the submitted form alone: in every state the
    process reaches a call answers [resp] and emits [fl] and [lg], and so
    does a second call with the same form made right after the first. *)
Theorem calculate_stateless (form : MultiDict) :
  exists (resp : response) (fl : list string) (lg : list (level * string)),
    forall st, reachable st ->
      calculate form st = (resp, emit fl lg st)
      /\ calculate form (emit fl lg st) = (resp, emit fl lg (emit fl lg st)).
Proof.
  destruct (calculate_by_form form) as (resp & fl & lg & H).
  exists resp, fl, lg. intros st [Hf Ha]%reachable_tables.
  split; apply H; split; assumption.
Qed.

Lemma calculate_stateless_witness :
  exists (resp : response) (fl : list string) (lg : list (level * string)),
    calculate (submit "gasoline" "x") app_init = (resp, emit fl lg app_init)
    /\ calculate (submit "gasoline" "x") (emit fl lg app_init)
       = (resp, emit fl lg (emit fl lg app_init)).
Proof.
  destruct (calculate_stateless (submit "gasoline" "x")) as (resp & fl & lg & H).
  exists resp, fl, lg. apply H, reachable_init.
Defined.

(** C8: in every state the process reaches, [EMISSION_FACTORS] has
    exactly the keys [electricity], [gasoline] and [natural_gas], each
    with a coefficient above zero, and no request changes
    [EMISSION_FACTORS] or [ALTERNATIVES]: they are the dicts the module
    was loaded with. *)
Theorem tables_fixed (st : state) :
  reachable st ->
  dom (EMISSION_FACTORS st)
  = ({[ "electricity"; "gasoline"; "natural_gas" ]} : gset string)
  /\ (forall k c, EMISSION_FACTORS st !! k = Some c -> ltb pos_zero c = true)
  /\ (forall r : request,
         EMISSION_FACTORS (handle r st).2 = EMISSION_FACTORS st
         /\ ALTERNATIVES (handle r st).2 = ALTERNATIVES st)
  /\ EMISSION_FACTORS st = EMISSION_FACTORS app_init
  /\ ALTERNATIVES st = ALTERNATIVES app_init.
Proof.
  intros [Hf Ha]%reachable_tables. rewrite Hf.
  split; [exact factors_dom | ].
  split; [exact factors_positive | ].
  split; [ | split; reflexivity || assumption].
  intros r. rewrite <- Hf. exact (handle_tables r st).
Qed.

Lemma tables_fixed_witness :
  dom (EMISSION_FACTORS (handle (POST_calculate (submit "coal" "ten")) app_init).2)
  = ({[ "electricity"; "gasoline"; "natural_gas" ]} : gset string)
  /\ (forall k c,
         EMISSION_FACTORS (handle (POST_calculate (submit "coal" "ten")) app_init).2
           !! k = Some c ->
         ltb pos_zero c = true)
  /\ (forall r : request,
         EMISSION_FACTORS
           (handle r (handle (POST_calculate (submit "coal" "ten")) app_init).2).2
         = EMISSION_FACTORS
             (handle (POST_calculate (submit "coal" "ten")) app_init).2
         /\ ALTERNATIVES
              (handle r (handle (POST_calculate (submit "coal" "ten")) app_init).2).2
            = ALTERNATIVES
                (handle (POST_calculate (submit "coal" "ten")) app_init).2)
  /\ EMISSION_FACTORS (handle (POST_calculate (submit "coal" "ten")) app_init).2
     = EMISSION_FACTORS app_init
  /\ ALTERNATIVES (handle (POST_calculate (submit "coal" "ten")) app_init).2
     = ALTERNATIVES app_init.
Proof.
  apply (tables_fixed (handle (POST_calculate (submit "coal" "ten")) app_init).2).
  apply reachable_step, reachable_init.
Defined.

(** C9: when the form has no [amount] field, [float(None)] raises a
    [TypeError], not a [ValueError]; the last [except] clause runs and
    the message flashed is the generic one, not the one for an amount
    that does not parse. *)
Theorem missing_amount_generic_message (st : state) (form : MultiDict) :
  form_get "amount" form = None ->
  exists msg,
    float_ (form_get "amount" form) = Raise (TypeError msg)
    /\ calculate form st
       = (Redirect (url_for ep_index),
          emit ["An error occurred. Please try again."]
               [(ERROR, "An unexpected error occurred: " ++ msg)] st)
    /\ flashes (calculate form st).2
       <> (flashes st
           ++ ["Invalid input. Please enter a numeric value for amount."])%list.
Proof.
  intros Hs.
  destruct (calculate_no_amount form st Hs) as (msg & Hf & Hc).
  exists msg. rewrite Hs, Hc. split; [exact Hf | split; [reflexivity | ]].
  cbn [snd emit flashes]. intros E%app_inv_head. discriminate E.
Qed.

Lemma missing_amount_generic_message_witness :
  exists msg,
    float_ (form_get "amount" [("activity_type", "gasoline")])
    = Raise (TypeError msg)
    /\ calculate [("activity_type", "gasoline")] app_init
       = (Redirect (url_for ep_index),
          emit ["An error occurred. Please try again."]
               [(ERROR, "An unexpected error occurred: " ++ msg)] app_init)
    /\ flashes (calculate [("activity_type", "gasoline")] app_init).2
       <> (flashes app_init
           ++ ["Invalid input. Please enter a numeric value for amount."])%list.
Proof.
  apply (missing_amount_generic_message app_init [("activity_type", "gasoline")]).
  reflexivity.
Defined.

(** C10, as stated, fails: with no [activity_type] field and the amount
    text [-inf] the advisory is the fallback and the coefficient the
    default, but the emissions are [0 * -inf], a NaN, not zero. *)
Lemma missing_key_infinite_amount :
  ~ ((forall k : string,
         EMISSION_FACTORS app_init !! k = None
         <-> ALTERNATIVES app_init !! k = None)
     /\ forall (form : MultiDict) (s : string) (a : float),
         form_get "amount" form = Some s ->
         FloatFromString.from_string s = Some a ->
         exists emissions adv,
           calculate form app_init = (result_page emissions adv, app_init)
           /\ (adv = "No suggestion available."
               <-> coefficient form app_init = Int 0)
           /\ (coefficient form app_init = Int 0 ->
               eqb emissions pos_zero = true
               /\ adv = "No suggestion available.")).
Proof.
  intros [_ H].
  destruct (H [("amount", "-inf")] "-inf" (S754_infinity true))
    as (e & adv & Hc & _ & Hz).
  - reflexivity.
  - vm_compute; reflexivity.
  - assert (calculate [("amount", "-inf")] app_init
            = (result_page nan "No suggestion available.", app_init)) as E
      by (vm_compute; reflexivity).
    rewrite E in Hc. injection Hc as <- <-.
    destruct Hz as [Hz _]; [reflexivity | discriminate Hz].
Qed.

(** C10, amended: the two tables have the same keys, so for every form
    whose amount text parses the advisory rendered is the fallback text
    exactly when the coefficient used is the default [0], that is when
    the activity type is missing or in no table.  The emissions are then
    [0 * amount]: for a finite amount a zero, which compares equal to
    [0.0]. *)
Theorem fallback_iff_default_coefficient
    (st : state) (form : MultiDict) (s : string) (a : float) :
  reachable st ->
  form_get "amount" form = Some s ->
  FloatFromString.from_string s = Some a ->
  dom (EMISSION_FACTORS st) = dom (ALTERNATIVES st)
  /\ exists emissions adv,
      calculate form st = (result_page emissions adv, st)
      /\ (adv = "No suggestion available." <-> coefficient form st = Int 0)
      /\ (coefficient form st = Int 0
          <-> dict_get (EMISSION_FACTORS st) (form_get "activity_type" form)
              = None)
      /\ (coefficient form st = Int 0 ->
          emissions = Py.mul (Int 0) a
          /\ (is_finite a = true ->
              emissions = S754_zero (signbit a)
              /\ eqb emissions pos_zero = true)).
Proof.
  intros Hst Hs Ha.
  destruct (reachable_tables st Hst) as [Hf Hadv].
  split.
  { rewrite Hf, Hadv, factors_dom, alternatives_dom. reflexivity. }
  rewrite (calculate_parsed form st s a Hs Ha).
  eexists _, _. split; [reflexivity | ].
  unfold coefficient. rewrite Hf, Hadv.
  destruct (form_get "activity_type" form) as [k | ]; cbn [dict_get].
  - destruct (EMISSION_FACTORS app_init !! k) as [c | ] eqn:Hc.
    + destruct (ALTERNATIVES app_init !! k) as [adv | ] eqn:Hk.
      * pose proof (alternatives_not_fallback k adv Hk) as Hne.
        cbn [from_option default].
        repeat split; intros; (discriminate || contradiction).
      * apply tables_same_keys in Hk. congruence.
    + pose proof Hc as Hk. apply tables_same_keys in Hk. rewrite Hk.
      cbn [from_option default].
      repeat split; try reflexivity.
      * apply mul_int_zero_finite; assumption.
      * rewrite mul_int_zero_finite by assumption. apply zero_eqb.
  - cbn [from_option default]. repeat split; try reflexivity.
    + apply mul_int_zero_finite; assumption.
    + rewrite mul_int_zero_finite by assumption. apply zero_eqb.
Qed.

Lemma fallback_iff_default_coefficient_witness :
  dom (EMISSION_FACTORS app_init) = dom (ALTERNATIVES app_init)
  /\ exists emissions adv,
      calculate [("amount", "3.5")] app_init
      = (result_page emissions adv, app_init)
      /\ (adv = "No suggestion available."
          <-> coefficient [("amount", "3.5")] app_init = Int 0)
      /\ (coefficient [("amount", "3.5")] app_init = Int 0
          <-> dict_get (EMISSION_FACTORS app_init)
                (form_get "activity_type" [("amount", "3.5")])
              = None)
      /\ (coefficient [("amount", "3.5")] app_init = Int 0 ->
          emissions = Py.mul (Int 0) (literal "3.5")
          /\ (is_finite (literal "3.5") = true ->
              emissions = S754_zero (signbit (literal "3.5"))
              /\ eqb emissions pos_zero = true)).
Proof.
  apply (fallback_iff_default_coefficient
           app_init [("amount", "3.5")] "3.5" (literal "3.5")).
  - apply reachable_init.
  - reflexivity.
  - vm_compute; reflexivity.
Defined.

(** * Further properties of the views *)

(** ** One request *)

Section Step.

Lemma calculate_shape (form : MultiDict) (st : state) :
  step_shape st (calculate form st).
Proof.
  unfold calculate, calculate_body.
  destruct (float_ (form_get "amount" form)) as [a | [ | msg]] eqn:Hf;
    cbn [bind].
  - apply shape_result.
  - apply (shape_redirect st).
    + unfold flash_messages. rewrite !elem_of_cons. left; reflexivity.
    + unfold error_records. rewrite !elem_of_cons. left; reflexivity.
  - destruct (form_get "amount" form) as [s | ]; cbn in Hf.
    + destruct (FloatFromString.from_string s); discriminate Hf.
    + injection Hf as <-. apply (shape_redirect st).
      * unfold flash_messages. rewrite !elem_of_cons. right; left; reflexivity.
      * unfold error_records. rewrite !elem_of_cons. right; left; reflexivity.
Qed.

Lemma handle_shape (r : request) (st : state) :
  step_shape st (handle r st).
Proof.
  destruct r as [ | form]; [apply shape_index | apply calculate_shape].
Qed.

End Step.

(** ** A session: requests served in turn *)

Section Session.

Lemma serve_cons (r : request) (reqs : list request) (st : state) :
  serve (r :: reqs) st
  = ((handle r st).1 :: (serve reqs (handle r st).2).1,
     (serve reqs (handle r st).2).2).
Proof.
  cbn [serve]. destruct (handle r st) as [resp st1]. cbn [fst snd].
  destruct (serve reqs st1) as [resps st2]. reflexivity.
Qed.

(** The states reached are the states sessions end in. *)
Lemma reachable_serve (st : state) :
  reachable st <-> exists reqs, st = (serve reqs app_init).2.
Proof.
  split.
  - induction 1 as [ | r st _ [reqs ->]].
    + exists []. reflexivity.
    + exists (reqs ++ [r])%list.
      generalize app_init. induction reqs as [ | r' reqs IH]; intros st0.
      * cbn [app]. rewrite serve_cons. reflexivity.
      * cbn [app]. rewrite !serve_cons. cbn [snd]. apply IH.
  - intros [reqs ->].
    assert (forall st0, reachable st0 -> reachable (serve reqs st0).2) as H.
    { induction reqs as [ | r reqs IH]; intros st0 H0.
      - exact H0.
      - rewrite serve_cons. cbn [snd]. apply IH, reachable_step, H0. }
    apply H, reachable_init.
Qed.

End Session.

(** X1: over any session, the log grows by exactly one record per
    redirect answered, each at [ERROR]; rendering a page never logs and
    nothing already logged is changed or dropped. *)
Theorem log_accounting (reqs : list request) (st : state) :
  exists lg : list (level * string),
    log (serve reqs st).2 = (log st ++ lg)%list
    /\ length lg = length (List.filter is_redirect (serve reqs st).1)
    /\ Forall (fun record => record ∈ error_records) lg.
Proof.
  revert st. induction reqs as [ | r reqs IH]; intros st.
  - exists []. cbn [serve fst snd map concat List.filter length app].
    rewrite app_nil_r. auto.
  - rewrite serve_cons. cbn [fst snd].
    destruct (IH (handle r st).2) as (lg & Hlog & Hlen & Herr).
    rewrite Hlog.
    destruct (handle_shape r st) as [ | e adv | m record Hm Hr]; cbn [fst snd].
    + exists lg. auto.
    + exists lg. auto.
    + exists (record :: lg). cbn [emit log List.filter is_redirect length].
      rewrite <- app_assoc. auto.
Qed.

(** X2: over any session, every message flashed is shown exactly once
    and in order: the messages the pages displayed, followed by those
    still queued, are the messages queued at the start followed by one
    message per redirect answered, each of them one of the two fixed
    texts. *)
Theorem flashes_shown_once (reqs : list request) (st : state) :
  exists fl : list string,
    (concat (map displayed (serve reqs st).1) ++ flashes (serve reqs st).2)%list
    = (flashes st ++ fl)%list
    /\ length fl = length (List.filter is_redirect (serve reqs st).1)
    /\ Forall (fun message => message ∈ flash_messages) fl.
Proof.
  revert st. induction reqs as [ | r reqs IH]; intros st.
  - exists []. cbn [serve fst snd map concat List.filter length app].
    rewrite app_nil_r. auto.
  - rewrite serve_cons. cbn [fst snd map concat].
    destruct (IH (handle r st).2) as (fl & Hfl & Hlen & Hin).
    rewrite <- app_assoc, Hfl.
    destruct (handle_shape r st) as [ | e adv | m record Hm Hr]; cbn [fst snd].
    + exists fl. cbn [displayed flashes app]. auto.
    + exists fl. cbn [displayed result_page app]. auto.
    + exists (m :: fl).
      cbn [emit flashes List.filter is_redirect displayed length app].
      rewrite <- app_assoc. auto.
Qed.

(** X3: when a submission is turned down, the next visit of the input
    form shows the messages that were queued, the new one last, and the
    visit after that shows none. *)
Theorem flash_handoff (form : MultiDict) (st : state) :
  is_redirect (calculate form st).1 = true ->
  exists message,
    message ∈ flash_messages
    /\ (serve [POST_calculate form; GET_index; GET_index] st).1
       = [Redirect (url_for ep_index);
          Page index_html [] (flashes st ++ [message])%list;
          Page index_html [] []].
Proof.
  intros Hred. cbn [serve handle].
  destruct (calculate_shape form st) as [ | e adv | m record Hm Hr];
    try discriminate Hred.
  exists m. split; [exact Hm | reflexivity].
Qed.

Lemma flash_handoff_witness :
  exists message,
    message ∈ flash_messages
    /\ (serve [POST_calculate (submit "gasoline" "five"); GET_index; GET_index]
              app_init).1
       = [Redirect (url_for ep_index);
          Page index_html [] (flashes app_init ++ [message])%list;
          Page index_html [] []].
Proof.
  apply (flash_handoff (submit "gasoline" "five") app_init).
  vm_compute; reflexivity.
Defined.

(** ** The emissions as a function of the amount *)

Section Emissions.

(** Rounding does not look at the sign it attaches. *)
Lemma binary_round_aux_opp (sx : bool) (mx ex : Z) (lx : location) :
  SFopp (binary_round_aux prec emax sx mx ex lx)
  = binary_round_aux prec emax (negb sx) mx ex lx.
Proof.
  unfold binary_round_aux.
  destruct (shr_fexp prec emax mx ex lx) as [mrs' e'].
  destruct (shr_fexp prec emax _ e' loc_Exact) as [mrs'' e''].
  destruct (shr_m mrs'') as [ | m | m]; try reflexivity.
  destruct (Z.leb e'' (emax - prec)); reflexivity.
Qed.

Lemma mul_opp_r (x y : float) :
  PyFloat.mul x (SFopp y) = SFopp (PyFloat.mul x y).
Proof.
  unfold PyFloat.mul.
  destruct x as [sx | sx | | sx mx ex], y as [sy | sy | | sy my ey];
    cbn [SFmul SFopp]; try reflexivity;
    try (destruct sx, sy; reflexivity).
  rewrite binary_round_aux_opp. destruct sx, sy; reflexivity.
Qed.

Lemma py_mul_opp_r (x : number) (a : float) :
  Py.mul x (SFopp a) = SFopp (Py.mul x a).
Proof. destruct x; apply mul_opp_r. Qed.

(** A positive finite factor passes the kind and the sign of the amount
    on to the product. *)
Lemma mul_positive_finite (mc : positive) (ec : Z) (a : float) :
  let e := PyFloat.mul (S754_finite false mc ec) a in
  (e = nan <-> a = nan)
  /\ signbit e = signbit a
  /\ (is_finite a = false -> e = a)
  /\ (forall s, a = S754_zero s -> e = a).
Proof.
  destruct a as [s | s | | s m ex]; cbn.
  - repeat split; intros; (discriminate || reflexivity || assumption).
  - repeat split; intros; (discriminate || reflexivity || assumption).
  - repeat split; intros; (discriminate || reflexivity || assumption).
  - destruct (binary_round_aux_sign s (Z.pos (mc * m)) (ec + ex) loc_Exact)
      as [Hnan Hsign]; [lia | ].
    cbn zeta in Hnan, Hsign.
    repeat split; intros; try discriminate; try assumption.
    contradiction.
Qed.

End Emissions.

(** X4: for a known key the emissions follow the amount: they are NaN
    only for a NaN amount, they carry the sign of the amount, an
    infinite amount gives infinite emissions, and a zero amount gives
    zero emissions. *)
Theorem known_key_emissions_follow_amount
    (st : state) (form : MultiDict) (k s : string) (a : float) :
  reachable st ->
  form_get "activity_type" form = Some k ->
  form_get "amount" form = Some s ->
  k ∈ known_keys ->
  FloatFromString.from_string s = Some a ->
  exists emissions adv,
    calculate form st = (result_page emissions adv, st)
    /\ (emissions = nan <-> a = nan)
    /\ signbit emissions = signbit a
    /\ (is_finite a = false -> emissions = a)
    /\ (forall sign, a = S754_zero sign -> emissions = a).
Proof.
  intros Hst Hk Hs Hin Ha.
  destruct (calculate_known st form k s a Hst Hk Hs Hin Ha)
    as (c & adv & Hc & _ & Hcalc).
  destruct (factors_finite k c Hc) as (mc & ec & ->).
  exists (PyFloat.mul (S754_finite false mc ec) a), adv.
  split; [exact Hcalc | apply mul_positive_finite].
Qed.

Lemma known_key_emissions_follow_amount_witness :
  exists emissions adv,
    calculate (submit "electricity" "-Infinity") app_init
    = (result_page emissions adv, app_init)
    /\ (emissions = nan <-> S754_infinity true = nan)
    /\ signbit emissions = signbit (S754_infinity true)
    /\ (is_finite (S754_infinity true) = false ->
        emissions = S754_infinity true)
    /\ (forall sign, S754_infinity true = S754_zero sign ->
                     emissions = S754_infinity true).
Proof.
  apply (known_key_emissions_follow_amount
           app_init (submit "electricity" "-Infinity") "electricity"
           "-Infinity" (S754_infinity true)).
  - apply reachable_init.
  - reflexivity.
  - reflexivity.
  - unfold known_keys. rewrite !elem_of_cons. left; reflexivity.
  - vm_compute; reflexivity.
Defined.

(** X5: in any state, two submissions for the same activity type whose
    amounts parse to opposite floats get the same advisory and opposite
    emissions: the handler treats credit and debit alike. *)
Theorem opposite_amounts_opposite_emissions
    (st : state) (form form' : MultiDict) (s s' : string) (a : float) :
  form_get "activity_type" form' = form_get "activity_type" form ->
  form_get "amount" form = Some s ->
  form_get "amount" form' = Some s' ->
  FloatFromString.from_string s = Some a ->
  FloatFromString.from_string s' = Some (SFopp a) ->
  exists emissions adv,
    calculate form st = (result_page emissions adv, st)
    /\ calculate form' st = (result_page (SFopp emissions) adv, st).
Proof.
  intros Hk Hs Hs' Ha Ha'.
  rewrite (calculate_parsed form st s a Hs Ha).
  rewrite (calculate_parsed form' st s' (SFopp a) Hs' Ha').
  unfold coefficient. rewrite Hk, py_mul_opp_r. eauto.
Qed.

Lemma opposite_amounts_opposite_emissions_witness :
  exists emissions adv,
    calculate (submit "gasoline" "12.5") app_init
    = (result_page emissions adv, app_init)
    /\ calculate (submit "gasoline" "-12.5") app_init
       = (result_page (SFopp emissions) adv, app_init).
Proof.
  apply (opposite_amounts_opposite_emissions
           app_init (submit "gasoline" "12.5") (submit "gasoline" "-12.5")
           "12.5" "-12.5" (literal "12.5"));
    vm_compute; reflexivity.
Defined.

(** ** The amount texts [float()] accepts *)

(** Case analysis on the eight bits of a character. *)
Ltac each_char c :=
  destruct c as [[ | ] [ | ] [ | ] [ | ] [ | ] [ | ] [ | ] [ | ]].

Section AmountText.

Import FloatFromString.

(** A decimal digit is an ASCII character that is neither white space,
    nor an underscore, nor a sign. *)
Lemma digit_char (c : ascii) :
  is_digit c = true ->
  is_ascii c = true /\ Py_ISSPACE c = false /\ Ascii.eqb c "_" = false
  /\ take_sign [c] = (false, [c]).
Proof.
  each_char c; intros H; try discriminate H; repeat split.
Qed.

Lemma take_sign_digit (c : ascii) (rest : list ascii) :
  is_digit c = true -> take_sign (c :: rest) = (false, c :: rest).
Proof.
  each_char c; intros H; try discriminate H; reflexivity.
Qed.

Lemma lstrip_head (c : ascii) (rest : list ascii) :
  Py_ISSPACE c = false -> lstrip (c :: rest) = c :: rest.
Proof. intros H. cbn [lstrip]. rewrite H. reflexivity. Qed.

Lemma forallb_rev {A : Type} (f : A -> bool) (l : list A) :
  forallb f (rev l) = forallb f l.
Proof.
  induction l as [ | x l IH]; [reflexivity | ].
  cbn [rev forallb]. rewrite forallb_app, IH. cbn [forallb].
  rewrite andb_true_r. apply andb_comm.
Qed.

Lemma lstrip_no_space (l : list ascii) :
  forallb (fun c => negb (Py_ISSPACE c)) l = true -> lstrip l = l.
Proof.
  destruct l as [ | c rest]; [reflexivity | ].
  cbn [forallb]. intros [Hc _]%andb_true_iff.
  apply lstrip_head, negb_true_iff, Hc.
Qed.

Lemma rstrip_no_space (l : list ascii) :
  forallb (fun c => negb (Py_ISSPACE c)) l = true -> rstrip l = l.
Proof.
  intros H. unfold rstrip.
  rewrite lstrip_no_space by (rewrite forallb_rev; exact H).
  apply rev_involutive.
Qed.

Lemma span_digits_all (l : list ascii) :
  forallb is_digit l = true -> span_digits l = (l, []).
Proof.
  induction l as [ | c rest IH]; [reflexivity | ].
  cbn [forallb span_digits]. intros [Hc Hrest]%andb_true_iff.
  rewrite Hc, (IH Hrest). reflexivity.
Qed.

Lemma forallb_impl {A : Type} (f g : A -> bool) (l : list A) :
  (forall x, f x = true -> g x = true) ->
  forallb f l = true -> forallb g l = true.
Proof.
  intros Hfg. induction l as [ | x l IH]; [reflexivity | ].
  cbn [forallb]. intros [Hx Hl]%andb_true_iff.
  rewrite (Hfg x Hx), (IH Hl). reflexivity.
Qed.

Lemma digits_no_underscore (l : list ascii) :
  forallb is_digit l = true -> has_underscore l = false.
Proof.
  induction l as [ | c rest IH]; [reflexivity | ].
  cbn [forallb has_underscore existsb]. intros [Hc Hrest]%andb_true_iff.
  destruct (digit_char c Hc) as (_ & _ & Hu & _).
  rewrite Ascii.eqb_sym, Hu. exact (IH Hrest).
Qed.

(** A text of decimal digits, at least one, reads as that integer. *)
Lemma from_string_digits (v : string) :
  v <> EmptyString ->
  forallb is_digit (list_ascii_of_string v) = true ->
  from_string v
  = Some (of_decimal false (digits_value (list_ascii_of_string v)) 0).
Proof.
  intros Hne Hd. unfold from_string.
  destruct (list_ascii_of_string v) as [ | c rest] eqn:Hl.
  { destruct v; [contradiction | discriminate Hl]. }
  assert (forallb is_ascii (c :: rest) = true) as Hascii.
  { revert Hd. apply forallb_impl. intros x Hx. apply (digit_char x Hx). }
  assert (forallb (fun c => negb (Py_ISSPACE c)) (c :: rest) = true) as Hsp.
  { revert Hd. apply forallb_impl. intros x Hx.
    destruct (digit_char x Hx) as (_ & -> & _). reflexivity. }
  unfold transform. rewrite Hascii.
  rewrite (lstrip_no_space _ Hsp), (rstrip_no_space _ Hsp).
  rewrite (digits_no_underscore _ Hd).
  unfold string_to_double.
  cbn [forallb] in Hd. apply andb_true_iff in Hd as [Hc Hrest].
  rewrite (take_sign_digit c rest Hc).
  rewrite (span_digits_all (c :: rest))
    by (cbn [forallb]; rewrite Hc, Hrest; reflexivity).
  rewrite app_nil_r. reflexivity.
Qed.

End AmountText.

(** X6: an amount written with decimal digits only, at least one, is
    never turned down: whatever the activity type and the state, the
    result page is rendered, with the coefficient times the float
    nearest to that integer. *)
Theorem digits_amount_accepted
    (st : state) (form : MultiDict) (s : string) :
  form_get "amount" form = Some s ->
  s <> EmptyString ->
  forallb FloatFromString.is_digit (list_ascii_of_string s) = true ->
  exists adv,
    calculate form st
    = (result_page
         (Py.mul (coefficient form st)
            (of_decimal false
               (FloatFromString.digits_value (list_ascii_of_string s)) 0))
         adv,
       st).
Proof.
  intros Hs Hne Hd. eexists.
  apply (calculate_parsed form st s _ Hs).
  apply from_string_digits; assumption.
Qed.

Lemma digits_amount_accepted_witness :
  exists adv,
    calculate (submit "natural_gas" "0042") app_init
    = (result_page
         (Py.mul (coefficient (submit "natural_gas" "0042") app_init)
            (of_decimal false
               (FloatFromString.digits_value (list_ascii_of_string "0042")) 0))
         adv,
       app_init).
Proof.
  apply (digits_amount_accepted app_init (submit "natural_gas" "0042") "0042").
  - reflexivity.
  - discriminate.
  - reflexivity.
Defined.

Section Alphabet.

Import FloatFromString.








Lemma point_number_char : number_char "." = true.
Proof. reflexivity. Qed.


End Alphabet.

Section Stripping.

Import FloatFromString.







End Stripping.



Section Padding.

Import FloatFromString.

Lemma list_ascii_of_string_app (a b : string) :
  list_ascii_of_string (a ++ b)
  = (list_ascii_of_string a ++ list_ascii_of_string b)%list.
Proof.
  induction a as [ | c a IH]; [reflexivity | ].
  simpl. f_equal. exact IH.
Qed.

Lemma space_char (c : ascii) :
  Py_ISSPACE c = true -> is_ascii c = true /\ (code c <? 127)%N = true.
Proof. each_char c; intros H; try discriminate H; split; reflexivity. Qed.

Lemma lstrip_spaces_app (pre x : list ascii) :
  forallb Py_ISSPACE pre = true -> lstrip (pre ++ x) = lstrip x.
Proof.
  induction pre as [ | c pre IH]; [reflexivity | ].
  cbn [forallb app lstrip]. intros [Hc Hpre]%andb_true_iff.
  rewrite Hc. exact (IH Hpre).
Qed.

Lemma rstrip_app_spaces (x post : list ascii) :
  forallb Py_ISSPACE post = true -> rstrip (x ++ post) = rstrip x.
Proof.
  intros H. unfold rstrip. rewrite rev_app_distr.
  rewrite lstrip_spaces_app by (rewrite forallb_rev; exact H).
  reflexivity.
Qed.

Lemma strip_app_spaces (t post : list ascii) :
  forallb Py_ISSPACE post = true ->
  rstrip (lstrip (t ++ post)) = rstrip (lstrip t).
Proof.
  intros H. induction t as [ | c t IH].
  - cbn [app]. rewrite <- (app_nil_r post), (lstrip_spaces_app post [] H).
    reflexivity.
  - cbn [app lstrip]. destruct (Py_ISSPACE c); [exact IH | ].
    apply (rstrip_app_spaces (c :: t) post H).
Qed.

Lemma strip_padded (pre t post : list ascii) :
  forallb Py_ISSPACE pre = true ->
  forallb Py_ISSPACE post = true ->
  rstrip (lstrip (pre ++ t ++ post)) = rstrip (lstrip t).
Proof.
  intros Hpre Hpost.
  rewrite (lstrip_spaces_app pre _ Hpre). apply strip_app_spaces, Hpost.
Qed.

Lemma transform_loop_spaces (pre x : list ascii) :
  forallb Py_ISSPACE pre = true ->
  transform_loop (pre ++ x) = (pre ++ transform_loop x)%list.
Proof.
  induction pre as [ | c pre IH]; [reflexivity | ].
  cbn [forallb app transform_loop]. intros [Hc Hpre]%andb_true_iff.
  destruct (space_char c Hc) as [_ ->]. rewrite (IH Hpre). reflexivity.
Qed.

(** White space after the text is kept, unless the text was cut short
    at a character that is no part of a number. *)
Lemma transform_loop_app_spaces (s post : list ascii) :
  forallb Py_ISSPACE post = true ->
  transform_loop (s ++ post) = (transform_loop s ++ post)%list
  \/ transform_loop (s ++ post) = transform_loop s.
Proof.
  intros H. induction s as [ | ch s IH].
  - left. cbn [app transform_loop].
    rewrite <- (app_nil_r post) at 1.
    rewrite (transform_loop_spaces post [] H). apply app_nil_r.
  - cbn [app transform_loop].
    destruct (code ch <? 127)%N; [ | destruct (Py_UNICODE_ISSPACE ch)].
    + destruct IH as [-> | ->]; [left | right]; reflexivity.
    + destruct IH as [-> | ->]; [left | right]; reflexivity.
    + right. reflexivity.
Qed.

Lemma spaces_ascii (l : list ascii) :
  forallb Py_ISSPACE l = true -> forallb is_ascii l = true.
Proof. apply forallb_impl. intros c Hc. apply (space_char c Hc). Qed.

Lemma strip_transform_padded (pre s post : list ascii) :
  forallb Py_ISSPACE pre = true ->
  forallb Py_ISSPACE post = true ->
  rstrip (lstrip (transform (pre ++ s ++ post)))
  = rstrip (lstrip (transform s)).
Proof.
  intros Hpre Hpost. unfold transform.
  rewrite !forallb_app, (spaces_ascii pre Hpre), (spaces_ascii post Hpost).
  rewrite andb_true_r. cbn [andb].
  destruct (forallb is_ascii s).
  - apply strip_padded; assumption.
  - rewrite (transform_loop_spaces pre _ Hpre).
    destruct (transform_loop_app_spaces s post Hpost) as [-> | ->].
    + apply strip_padded; assumption.
    + rewrite <- (app_nil_r (transform_loop s)) at 1.
      apply strip_padded; [assumption | reflexivity].
Qed.

(** ASCII white space around a text does not change how it reads. *)
Lemma from_string_padded (pre v post : string) :
  forallb Py_ISSPACE (list_ascii_of_string pre) = true ->
  forallb Py_ISSPACE (list_ascii_of_string post) = true ->
  from_string (pre ++ v ++ post) = from_string v.
Proof.
  intros Hpre Hpost. unfold from_string.
  rewrite !list_ascii_of_string_app.
  rewrite (strip_transform_padded _ _ _ Hpre Hpost). reflexivity.
Qed.

(** [calculate] reads the form through its two fields only. *)
Lemma calculate_fields (form form' : MultiDict) (st : state) :
  form_get "activity_type" form' = form_get "activity_type" form ->
  float_ (form_get "amount" form') = float_ (form_get "amount" form) ->
  calculate form' st = calculate form st.
Proof.
  intros Hk Ha. unfold calculate, calculate_body. rewrite Hk, Ha.
  reflexivity.
Qed.

End Padding.

(** X8: blanks, tabs and line ends typed around the amount do not
    matter: the handler answers the padded amount exactly as it answers
    the bare one, be it a result page or the rejection. *)
Theorem padded_amount_same_answer
    (st : state) (form form' : MultiDict) (pre s post : string) :
  form_get "activity_type" form' = form_get "activity_type" form ->
  form_get "amount" form = Some s ->
  form_get "amount" form' = Some (pre ++ s ++ post) ->
  forallb FloatFromString.Py_ISSPACE (list_ascii_of_string pre) = true ->
  forallb FloatFromString.Py_ISSPACE (list_ascii_of_string post) = true ->
  calculate form' st = calculate form st.
Proof.
  intros Hk Hs Hs' Hpre Hpost. apply calculate_fields; [exact Hk | ].
  rewrite Hs, Hs'. unfold float_.
  rewrite (from_string_padded pre s post Hpre Hpost). reflexivity.
Qed.

Lemma padded_amount_same_answer_witness :
  calculate (submit "gasoline" "  7.5 ") app_init
  = calculate (submit "gasoline" "7.5") app_init.
Proof.
  apply (padded_amount_same_answer
           app_init (submit "gasoline" "7.5") (submit "gasoline" "  7.5 ")
           "  " "7.5" " ");
    reflexivity.
Defined.

Lemma form_get_other (key name value : string) (form1 form2 : MultiDict) :
  name <> key ->
  form_get key (form1 ++ (name, value) :: form2)%list
  = form_get key (form1 ++ form2)%list.
Proof.
  intros Hne. induction form1 as [ | [k v] form1 IH].
  - cbn [app form_get].
    destruct (String.eqb_spec name key) as [E | _]; [contradiction | ].
    reflexivity.
  - cbn [app form_get]. rewrite IH. reflexivity.
Qed.

(** X9: a field of any other name, wherever it stands in the submitted
    form, has no effect on the answer or on the state. *)
Theorem extra_field_ignored
    (st : state) (form1 form2 : MultiDict) (name value : string) :
  name <> "activity_type" ->
  name <> "amount" ->
  calculate (form1 ++ (name, value) :: form2)%list st
  = calculate (form1 ++ form2)%list st.
Proof.
  intros Hk Ha. apply calculate_fields.
  - apply form_get_other, Hk.
  - rewrite (form_get_other "amount" name value form1 form2 Ha). reflexivity.
Qed.

Lemma extra_field_ignored_witness :
  calculate ([("activity_type", "gasoline")]
             ++ ("unit", "gallons") :: [("amount", "3")])%list app_init
  = calculate ([("activity_type", "gasoline")] ++ [("amount", "3")])%list
              app_init.
Proof.
  apply (extra_field_ignored
           app_init [("activity_type", "gasoline")] [("amount", "3")]
           "unit" "gallons");
    discriminate.
Defined.

Lemma form_get_app (key value : string) (form extra : MultiDict) :
  form_get key form = Some value ->
  form_get key (form ++ extra)%list = Some value.
Proof.
  induction form as [ | [k v] form IH]; [discriminate | ].
  cbn [app form_get]. destruct (String.eqb k key); [trivial | exact IH].
Qed.

(** X10: when a field is sent more than once, the first occurrence is
    the one that counts: fields appended to a form that already holds
    an activity type and an amount change nothing. *)
Theorem first_occurrence_counts
    (st : state) (form extra : MultiDict) (k s : string) :
  form_get "activity_type" form = Some k ->
  form_get "amount" form = Some s ->
  calculate (form ++ extra)%list st = calculate form st.
Proof.
  intros Hk Hs. apply calculate_fields.
  - rewrite Hk. apply form_get_app, Hk.
  - rewrite Hs, (form_get_app "amount" s form extra Hs). reflexivity.
Qed.

Lemma first_occurrence_counts_witness :
  calculate (submit "electricity" "100"
             ++ [("amount", "0"); ("activity_type", "solar")])%list app_init
  = calculate (submit "electricity" "100") app_init.
Proof.
  apply (first_occurrence_counts
           app_init (submit "electricity" "100")
           [("amount", "0"); ("activity_type", "solar")] "electricity" "100");
    reflexivity.
Defined.

(** X11: the input form and the tables agree: the options offered for
    the activity type are exactly the keys of [EMISSION_FACTORS], so a
    submission that picks an option and gives an amount that parses is
    never computed with the default coefficient and never shown the
    fallback advisory. *)
Theorem offered_option_never_falls_back
    (st : state) (form : MultiDict) (k s : string) (a : float) :
  reachable st ->
  form_get "activity_type" form = Some k ->
  form_get "amount" form = Some s ->
  k ∈ index_html_options ->
  FloatFromString.from_string s = Some a ->
  (forall k', k' ∈ index_html_options <-> k' ∈ dom (EMISSION_FACTORS st))
  /\ exists emissions adv,
      calculate form st = (result_page emissions adv, st)
      /\ adv <> "No suggestion available."
      /\ coefficient form st <> Int 0.
Proof.
  intros Hst Hk Hs Hin Ha.
  destruct (reachable_tables st Hst) as [Hf Hadv].
  split.
  { intros k'. rewrite Hf. exact (known_keys_dom k'). }
  destruct (known_key_lookup st k Hst Hin)
    as (c & adv & Hc & Halt & Hc' & Halt').
  destruct (calculate_known st form k s a Hst Hk Hs Hin Ha)
    as (c0 & adv0 & Hc0 & Halt0 & Hcalc).
  exists (PyFloat.mul c0 a), adv0. split; [exact Hcalc | split].
  - exact (alternatives_not_fallback k adv0 Halt0).
  - unfold coefficient. rewrite Hk. cbn [dict_get]. rewrite Hc'.
    discriminate.
Qed.

Lemma offered_option_never_falls_back_witness :
  (forall k',
      k' ∈ index_html_options <-> k' ∈ dom (EMISSION_FACTORS app_init))
  /\ exists emissions adv,
      calculate (submit "natural_gas" "1e3") app_init
      = (result_page emissions adv, app_init)
      /\ adv <> "No suggestion available."
      /\ coefficient (submit "natural_gas" "1e3") app_init <> Int 0.
Proof.
  apply (offered_option_never_falls_back
           app_init (submit "natural_gas" "1e3") "natural_gas" "1e3"
           (literal "1e3")).
  - apply reachable_init.
  - reflexivity.
  - reflexivity.
  - unfold index_html_options. rewrite !elem_of_cons.
    right; right; left; reflexivity.
  - vm_compute; reflexivity.
Defined.
